(** * Scheduled nodegroup scaler: the Lambda handler

    A shallow embedding of [infra/lambda/scale_nodegroup/handler.py]
    ([_coerce_capacity] and [on_event]) together with the properties of the
    capacity envelope it computes and of the single call it makes to the
    cluster API.

    Modelling choices.
    - Python [int] is [Z]; Python [float] is a binary floating-point datum
      ([spec_float]: signed zero, infinity, NaN, or sign/mantissa/exponent);
      [str] is [string], each character being one code point below 256.
    - An event is a dictionary from field names to JSON-like values.
    - Exceptions are values of [exn]; a computation that may raise returns
      [res].
    - The handler runs in a small state-and-exception monad over [world]:
      the lines written to the logger and the calls issued to the cluster
      API, in order.  What the API answers is a parameter of the handler.
    - The interpreter's optional length limit on the text of an integer is
      not part of the model. *)

From Stdlib Require Import ZArith QArith Qround Ascii String List Lia.
From Stdlib Require Import Floats.SpecFloat.
From Stdlib Require Import DecimalString DecimalZ DecimalN DecimalPos DecimalFacts.
From stdpp Require Import base gmap strings list fin_maps.

Set Warnings "-register-all".
Open Scope string_scope.
Open Scope list_scope.
Open Scope Z_scope.

(** ** Values and exceptions *)

(** The values an event can hold ([typing.Any], as a JSON payload decodes). *)
Inductive value : Type :=
| VNone
| VBool (b : bool)
| VInt (n : Z)
| VFloat (f : spec_float)
| VStr (s : string)
| VList (l : list value)
| VDict (d : list (string * value)).

(** What an exception was raised about. *)
Inductive detail : Type :=
| UnableToCoerce (v : value)   (* "Unable to coerce capacity value: {value!r}" *)
| InvalidLiteral (s : string)  (* "invalid literal for int() with base 10: {s!r}" *)
| FloatNaN                     (* "cannot convert float NaN to integer" *)
| FloatInfinity                (* "cannot convert float infinity to integer" *)
| NotANumber (v : value)       (* "int() argument must be a string ... or a real number" *)
| KeyMissing (k : string)      (* KeyError(k) *)
| Api (code : string).         (* an error answered by the cluster API *)

Inductive exn_class : Type :=
| ValueError | OverflowError | TypeError | KeyError | ClientError.

Record exn : Type := Exn { exn_cls : exn_class; exn_detail : detail }.

Inductive res (A : Type) : Type :=
| Ok (a : A)
| Raise (e : exn).
Arguments Ok {A} a.
Arguments Raise {A} e.

Definition is_ok {A} (r : res A) : bool :=
  match r with Ok _ => true | Raise _ => false end.

(** ** The built-ins the handler relies on *)

Definition code (c : ascii) : N := N_of_ascii c.

(** [str.isspace] on one character (code points below 256):
    TAB..CR, FS..US, SPACE, NEL and NBSP. *)
Definition py_isspace (c : ascii) : bool :=
  let n := code c in
  ((9 <=? n) && (n <=? 13) || (28 <=? n) && (n <=? 32)
   || (n =? 133) || (n =? 160))%N.

Definition chars (s : string) : list ascii := list_ascii_of_string s.

Fixpoint lstrip (cs : list ascii) : list ascii :=
  match cs with
  | c :: cs' => if py_isspace c then lstrip cs' else cs
  | [] => []
  end.

Definition rstrip (cs : list ascii) : list ascii := rev (lstrip (rev cs)).

(** [str.strip()] *)
Definition py_strip (cs : list ascii) : list ascii := rstrip (lstrip cs).

(** Decimal value of a character, if it is a decimal digit. *)
Definition digit_value (c : ascii) : option Z :=
  let n := code c in
  if ((48 <=? n) && (n <=? 57))%N then Some (Z.of_N n - 48) else None.

Definition is_underscore (c : ascii) : bool := (code c =? 95)%N.

(** The digits of an integer literal: decimal digits, with single underscores
    allowed between two digits.  [prev_us] records that the previous
    character was an underscore. *)
Fixpoint int_digits (acc : Z) (prev_us : bool) (cs : list ascii) : option Z :=
  match cs with
  | [] => if prev_us then None else Some acc
  | c :: cs' =>
      match digit_value c with
      | Some d => int_digits (10 * acc + d) false cs'
      | None =>
          if is_underscore c
          then (if prev_us then None else int_digits acc true cs')
          else None
      end
  end.

(** An unsigned literal: at least one character, not starting with an
    underscore. *)
Definition int_unsigned (cs : list ascii) : option Z :=
  match cs with
  | [] => None
  | c :: _ => if is_underscore c then None else int_digits 0 false cs
  end.

(** An optional sign followed by an unsigned literal. *)
Definition int_signed (cs : list ascii) : option Z :=
  match cs with
  | c :: cs' =>
      if (code c =? 45)%N then Z.opp <$> int_unsigned cs'
      else if (code c =? 43)%N then int_unsigned cs'
      else int_unsigned cs
  | [] => None
  end.

(** [int(s)] for a string: surrounding whitespace is dropped, then a signed
    base-10 literal must cover the rest. *)
Definition py_int_of_str (s : string) : res Z :=
  match int_signed (py_strip (chars s)) with
  | Some n => Ok n
  | None => Raise (Exn ValueError (InvalidLiteral s))
  end.

(** [int(f)] for a float: truncation towards zero; NaN and the infinities
    have no integer. *)
Definition py_int_of_float (f : spec_float) : res Z :=
  match f with
  | S754_zero _ => Ok 0
  | S754_infinity _ => Raise (Exn OverflowError FloatInfinity)
  | S754_nan => Raise (Exn ValueError FloatNaN)
  | S754_finite s m e =>
      let a := match e with
               | Z0 => Z.pos m
               | Zpos p => Z.pos m * 2 ^ Z.pos p
               | Zneg p => Z.pos m / 2 ^ Z.pos p
               end in
      Ok (if s then - a else a)
  end.

(** [int(b)] for a bool. *)
Definition py_int_of_bool (b : bool) : Z := if b then 1 else 0.

(** [str(n)] for an int: the decimal string of [n]. *)
Definition py_str_of_int (n : Z) : string := NilZero.string_of_int (Z.to_int n).

(** [int(v)] *)
Definition py_int (v : value) : res Z :=
  match v with
  | VBool b => Ok (py_int_of_bool b)
  | VInt n => Ok n
  | VFloat f => py_int_of_float f
  | VStr s => py_int_of_str s
  | VNone | VList _ | VDict _ => Raise (Exn TypeError (NotANumber v))
  end.

(** [isinstance(v, (int, float))]; [bool] is a subclass of [int]. *)
Definition isinstance_int_float (v : value) : bool :=
  match v with
  | VBool _ | VInt _ | VFloat _ => true
  | _ => false
  end.

(** [isinstance(v, str) and v.strip()], as a truth value. *)
Definition nonblank_str (v : value) : bool :=
  match v with
  | VStr s => match py_strip (chars s) with [] => false | _ :: _ => true end
  | _ => false
  end.

Definition is_None (v : value) : bool :=
  match v with VNone => true | _ => false end.

(** [dict.get(k)]: the value under [k], or [None]. *)
Definition dict_get (d : gmap string value) (k : string) : value :=
  default VNone (d !! k).

(** ** [_coerce_capacity] *)

Definition _coerce_capacity (v : value) (default : Z) : res Z :=
  if is_None v then Ok default
  else if isinstance_int_float v then py_int v
  else if nonblank_str v then py_int v
  else Raise (Exn ValueError (UnableToCoerce v)).

(** ** Module globals *)

Record globals : Type := Globals {
  _CLUSTER_NAME : string;
  _NODEGROUP_NAME : string;
  _MAX_CAPACITY : Z
}.

#[global] Instance res_ret : MRet res := @Ok.
#[global] Instance res_bind : MBind res := fun A B k r =>
  match r with Ok a => k a | Raise e => Raise e end.

(** [os.environ[k]] *)
Definition environ_item (environ : gmap string string) (k : string) : res string :=
  match environ !! k with
  | Some s => Ok s
  | None => Raise (Exn KeyError (KeyMissing k))
  end.

(** The assignments at import time (lines 14-16). *)
Definition load_globals (environ : gmap string string) : res globals :=
  c ← environ_item environ "CLUSTER_NAME";
  n ← environ_item environ "NODEGROUP_NAME";
  m ← py_int_of_str (default "4" (environ !! "MAX_CAPACITY"));
  mret (Globals c n m).

(** ** The world the handler acts on *)

Record scaling_config : Type := ScalingConfig {
  minSize : Z;
  maxSize : Z;
  desiredSize : Z
}.

(** The keyword arguments of one [update_nodegroup_config] call. *)
Record update_call : Type := UpdateCall {
  clusterName : string;
  nodegroupName : string;
  scalingConfig : scaling_config
}.

Inductive log_record : Type :=
| LogReceived (event : gmap string value)
| LogUpdating (cluster nodegroup : string) (desired minimum maximum : Z).

Record world : Type := World {
  logged : list log_record;
  eks_calls : list update_call
}.

(** State and exceptions. *)
Definition M (A : Type) : Type := world -> res A * world.

#[global] Instance M_ret : MRet M := fun A a w => (Ok a, w).
#[global] Instance M_bind : MBind M := fun A B k m w =>
  match m w with
  | (Ok a, w') => k a w'
  | (Raise e, w') => (Raise e, w')
  end.

Definition lift {A} (r : res A) : M A := fun w => (r, w).

(** [_LOGGER.info(...)] *)
Definition logger_info (r : log_record) : M unit := fun w =>
  (Ok tt, World (logged w ++ [r]) (eks_calls w)).

Section Handler.

(** The globals, and what the cluster API answers to a call given the calls
    it has received before: [None] when it accepts, an exception
    otherwise. *)
Variable g : globals.
Variable eks_answer : list update_call -> update_call -> option exn.

(** [_EKS.update_nodegroup_config(...)] *)
Definition update_nodegroup_config (c : update_call) : M unit := fun w =>
  let w' := World (logged w) (eks_calls w ++ [c]) in
  match eks_answer (eks_calls w) c with
  | None => (Ok tt, w')
  | Some e => (Raise e, w')
  end.

Definition on_event (event : gmap string value) : M (gmap string value) :=
  logger_info (LogReceived event);;
  desired_capacity ← lift (_coerce_capacity (dict_get event "desiredCapacity") 0);
  min_capacity ← lift (_coerce_capacity (dict_get event "minCapacity") desired_capacity);
  requested_max ← lift (_coerce_capacity (dict_get event "maxCapacity") (_MAX_CAPACITY g));
  let max_capacity := Z.max desired_capacity requested_max in
  logger_info (LogUpdating (_CLUSTER_NAME g) (_NODEGROUP_NAME g)
                           desired_capacity min_capacity max_capacity);;
  update_nodegroup_config
    (UpdateCall (_CLUSTER_NAME g) (_NODEGROUP_NAME g)
                (ScalingConfig min_capacity max_capacity desired_capacity));;
  mret (<["cluster" := VStr (_CLUSTER_NAME g)]>
        (<["nodegroup" := VStr (_NODEGROUP_NAME g)]>
         (<["desired" := VInt desired_capacity]>
          (<["min" := VInt min_capacity]>
           (<["max" := VInt max_capacity]> ∅))))).

End Handler.

(** ** The capacity envelope *)

Record envelope : Type := Envelope {
  min_capacity : Z;
  desired_capacity : Z;
  max_capacity : Z
}.

(** The three capacities [on_event] resolves at lines 34-37, as a function of
    the event and of the ceiling [_MAX_CAPACITY] (the spec's [normalize]). *)
Definition normalize (ceiling : Z) (event : gmap string value) : res envelope :=
  desired ← _coerce_capacity (dict_get event "desiredCapacity") 0;
  minimum ← _coerce_capacity (dict_get event "minCapacity") desired;
  requested_max ← _coerce_capacity (dict_get event "maxCapacity") ceiling;
  mret (Envelope minimum desired (Z.max desired requested_max)).

(** The call and the dictionary that [on_event] builds from an envelope. *)
Definition call_of (g : globals) (env : envelope) : update_call :=
  UpdateCall (_CLUSTER_NAME g) (_NODEGROUP_NAME g)
    (ScalingConfig (min_capacity env) (max_capacity env) (desired_capacity env)).

Definition response_of (cluster nodegroup : string) (desired minimum maximum : Z)
  : gmap string value :=
  <["cluster" := VStr cluster]>
    (<["nodegroup" := VStr nodegroup]>
      (<["desired" := VInt desired]>
        (<["min" := VInt minimum]>
          (<["max" := VInt maximum]> ∅)))).

(** The spec's [InvalidCapacityValue], "a request field could not be coerced
    to an integer": the exceptions that leave [_coerce_capacity].  They are
    [ValueError]s, except that [int] of an infinite float raises
    [OverflowError]. *)
Definition InvalidCapacityValue (e : exn) : Prop :=
  match exn_detail e with
  | UnableToCoerce _ | InvalidLiteral _ | FloatNaN => exn_cls e = ValueError
  | FloatInfinity => exn_cls e = OverflowError
  | NotANumber _ | KeyMissing _ | Api _ => False
  end.

(** The raw value an exception's message quotes, if it quotes one. *)
Definition raw_value_of (e : exn) : option value :=
  match exn_detail e with
  | UnableToCoerce v => Some v
  | InvalidLiteral s => Some (VStr s)
  | _ => None
  end.

(** Whether a value can be coerced at all (the default plays no part). *)
Definition coercible (v : value) : bool := is_ok (_coerce_capacity v 0).

(** The three request fields, in the order [on_event] reads them. *)
Definition fields : list string := ["desiredCapacity"; "minCapacity"; "maxCapacity"].


(** A supplied field that, where it can be coerced, gives no negative
    number. *)
Definition nonneg_if_supplied (event : gmap string value) (k : string) : Prop :=
  forall d n,
    dict_get event k <> VNone ->
    _coerce_capacity (dict_get event k) d = Ok n -> 0 <= n.

(** ** Numeric text and numeric values, for comparison with the handler *)

Definition is_point (c : ascii) : bool := (code c =? 46)%N.
Definition is_exp (c : ascii) : bool := ((code c =? 101) || (code c =? 69))%N.

(** The value of a run of decimal digits. *)
Fixpoint plain_digits (acc : Z) (cs : list ascii) : option Z :=
  match cs with
  | [] => Some acc
  | c :: cs' =>
      match digit_value c with
      | Some d => plain_digits (10 * acc + d) cs'
      | None => None
      end
  end.

(** The text before the first character that satisfies [p], and the text
    after it if there is such a character. *)
Fixpoint split_at (p : ascii -> bool) (cs : list ascii)
  : list ascii * option (list ascii) :=
  match cs with
  | [] => ([], None)
  | c :: cs' =>
      if p c then ([], Some cs')
      else let '(a, b) := split_at p cs' in (c :: a, b)
  end.

(** A leading sign, if any, and the rest. *)
Definition unsign (cs : list ascii) : bool * list ascii :=
  match cs with
  | c :: cs' =>
      if (code c =? 45)%N then (true, cs')
      else if (code c =? 43)%N then (false, cs')
      else (false, cs)
  | [] => (false, [])
  end.

Definition signed_digits (cs : list ascii) : option Z :=
  let '(neg, ds) := unsign cs in
  match ds with
  | [] => None
  | _ :: _ => (fun n => if neg then - n else n) <$> plain_digits 0 ds
  end.

(** The number that numeric text denotes: surrounding whitespace, a sign,
    digits with an optional decimal point, and an optional exponent, as in
    ["3"], ["3.5"], ["-0.25"] or ["35e-1"]. *)
Definition numeric_value (s : string) : option Q :=
  let '(neg, body) := unsign (py_strip (chars s)) in
  let '(mant, exp) := split_at is_exp body in
  let '(ip, fp) := split_at is_point mant in
  let fp' := default [] fp in
  match ip ++ fp' with
  | [] => None
  | _ :: _ =>
      match plain_digits 0 ip, plain_digits 0 fp',
            match exp with None => Some 0 | Some ecs => signed_digits ecs end with
      | Some i, Some f, Some e =>
          let m := i * 10 ^ Z.of_nat (length fp') + f in
          let q := (inject_Z m * (10 # 1) ^ (e - Z.of_nat (length fp')))%Q in
          Some (if neg then Qopp q else q)
      | _, _, _ => None
      end
  end.

(** The number a finite float denotes. *)
Definition float_value (f : spec_float) : option Q :=
  match f with
  | S754_zero _ => Some 0%Q
  | S754_finite s m e =>
      let a := match e with
               | Z0 => Z.pos m # 1
               | Zpos p => Z.pos m * 2 ^ Z.pos p # 1
               | Zneg p => Z.pos m # 2 ^ p
               end in
      Some (if s then Qopp a else a)
  | S754_infinity _ | S754_nan => None
  end.

(** The number a sequence of decimal digits, most significant first, denotes
    when read after [acc]. *)
Fixpoint uint_value (acc : Z) (d : Decimal.uint) : Z :=
  match d with
  | Decimal.Nil => acc
  | Decimal.D0 l => uint_value (10 * acc + 0) l
  | Decimal.D1 l => uint_value (10 * acc + 1) l
  | Decimal.D2 l => uint_value (10 * acc + 2) l
  | Decimal.D3 l => uint_value (10 * acc + 3) l
  | Decimal.D4 l => uint_value (10 * acc + 4) l
  | Decimal.D5 l => uint_value (10 * acc + 5) l
  | Decimal.D6 l => uint_value (10 * acc + 6) l
  | Decimal.D7 l => uint_value (10 * acc + 7) l
  | Decimal.D8 l => uint_value (10 * acc + 8) l
  | Decimal.D9 l => uint_value (10 * acc + 9) l
  end.

(** Truncation of a rational towards zero. *)
Definition Qtrunc (q : Q) : Z := Z.quot (Qnum q) (Z.pos (Qden q)).

Definition is_integer (q : Q) : Prop := exists n : Z, (q == inject_Z n)%Q.

(** The shapes the spec names as rejected: object, list, empty string and
    non-numeric string. *)
Definition rejected_shape (v : value) : Prop :=
  match v with
  | VList _ | VDict _ => True
  | VStr s => int_signed (py_strip (chars s)) = None
  | _ => False
  end.


(** The field coercion rule, clause by clause in the spec's words, between a
    raw value, the field's default and the outcome.  The float clause is
    about finite floats, and a rejection quotes the raw value. *)
Inductive coercion_rule (default : Z) : value -> res Z -> Prop :=
| rule_absent :
    coercion_rule default VNone (Ok default)
| rule_integer n :
    coercion_rule default (VInt n) (Ok n)
| rule_float f q :
    float_value f = Some q ->
    coercion_rule default (VFloat f) (Ok (Qtrunc q))
| rule_string s n :
    s <> "" -> int_signed (py_strip (chars s)) = Some n ->
    coercion_rule default (VStr s) (Ok n)
| rule_rejected v e :
    rejected_shape v ->
    InvalidCapacityValue e -> exn_cls e = ValueError ->
    raw_value_of e = Some v ->
    coercion_rule default v (Raise e).

(** ** The stack's side: what [EksSchedulerStack] hands to the handler

    The scheduler delivers the JSON text of a payload and the Lambda runtime
    decodes it; for these dictionaries of integers the event is the payload.
    The nodegroup's name is only known at deployment and is a parameter. *)

Definition cluster_name : string := "AstronomerEksCluster".

(** [environment=] of the scaler function (lines 151-155). *)
Definition scaler_environment (nodegroup_name : string) (max_node_capacity : Z)
  : gmap string string :=
  <["CLUSTER_NAME" := cluster_name]>
    (<["NODEGROUP_NAME" := nodegroup_name]>
      (<["MAX_CAPACITY" := py_str_of_int max_node_capacity]> ∅)).

(** [start_payload] and [stop_payload] (lines 158-165). *)
Definition start_payload (start_desired_capacity start_min_capacity : Z)
  : gmap string value :=
  <["desiredCapacity" := VInt start_desired_capacity]>
    (<["minCapacity" := VInt start_min_capacity]> ∅).

Definition stop_payload : gmap string value :=
  <["desiredCapacity" := VInt 0]> (<["minCapacity" := VInt 0]> ∅).

(** [scaling_config=] of the nodegroup as provisioned (lines 110-114). *)
Definition provisioned_scaling (max_node_capacity : Z) : scaling_config :=
  ScalingConfig 0 max_node_capacity 0.

(** An API that accepts every call. *)
Definition accepting : list update_call -> update_call -> option exn :=
  fun _ _ => None.

(** ** Sample data *)

Definition w0 : world := World [] [].
Definition g4 : globals := Globals "wildfire" "workers" 4.
Definition accept : list update_call -> update_call -> option exn := fun _ _ => None.

Definition f_inf : spec_float := S754_infinity false.

(** Events used as examples below. *)
Definition ev_start : gmap string value :=
  <["desiredCapacity" := VInt 3]> (<["minCapacity" := VInt 2]> ∅).
Definition ev_desired_6 : gmap string value := <["desiredCapacity" := VInt 6]> ∅.
Definition ev_min_above : gmap string value :=
  <["desiredCapacity" := VInt 3]> (<["minCapacity" := VInt 5]> ∅).
Definition ev_negative : gmap string value := <["desiredCapacity" := VInt (-1)]> ∅.
Definition ev_min_zero : gmap string value :=
  <["desiredCapacity" := VInt 3]> (<["minCapacity" := VInt 0]> ∅).

Definition ev_stop : gmap string value :=
  <["desiredCapacity" := VInt 0]> (<["minCapacity" := VInt 0]> ∅).
Definition ev_infinite : gmap string value := <["desiredCapacity" := VFloat f_inf]> ∅.
Definition refuse : list update_call -> update_call -> option exn :=
  fun _ _ => Some (Exn ClientError (Api "ResourceNotFoundException")).

(** * Properties *)

(** ** The scenarios of the spec, run *)

Example start_scenario :
  (on_event g4 accept ev_start w0).2 =
  World [LogReceived ev_start; LogUpdating "wildfire" "workers" 3 2 4]
        [UpdateCall "wildfire" "workers" (ScalingConfig 2 4 3)].
Proof. reflexivity. Qed.

Example stop_scenario : normalize 4 ev_stop = Ok (Envelope 0 0 4).
Proof. reflexivity. Qed.

Example widened_ceiling : normalize 4 ev_desired_6 = Ok (Envelope 6 6 6).
Proof. reflexivity. Qed.

Example text_and_number :
  _coerce_capacity (VStr "3") 0 = Ok 3 /\ _coerce_capacity (VStr " +1_0 ") 0 = Ok 10 /\
  _coerce_capacity (VStr "") 0 = Raise (Exn ValueError (UnableToCoerce (VStr ""))) /\
  _coerce_capacity (VStr "three") 0 = Raise (Exn ValueError (InvalidLiteral "three")).
Proof. repeat split. Qed.

Example default_ceiling :
  load_globals (<["CLUSTER_NAME" := "wildfire"]> (<["NODEGROUP_NAME" := "workers"]> ∅))
  = Ok g4.
Proof. reflexivity. Qed.

Example infinite_desired :
  on_event g4 accept ev_infinite w0 =
  (Raise (Exn OverflowError FloatInfinity), World [LogReceived ev_infinite] []).
Proof. reflexivity. Qed.

Example api_refusal :
  (on_event g4 refuse ev_start w0).1
    = Raise (Exn ClientError (Api "ResourceNotFoundException")) /\
  eks_calls (on_event g4 refuse ev_start w0).2
    = [UpdateCall "wildfire" "workers" (ScalingConfig 2 4 3)].
Proof. split; reflexivity. Qed.

(** ** The monad and the shape of a run *)

Lemma res_bind_Ok {A B} (r : res A) (k : A -> res B) (b : B) :
  r ≫= k = Ok b -> exists a, r = Ok a /\ k a = Ok b.
Proof. destruct r as [a|e]; simpl; [eauto | discriminate]. Qed.

Lemma normalize_Ok ceiling event env :
  normalize ceiling event = Ok env ->
  exists desired minimum requested_max,
    _coerce_capacity (dict_get event "desiredCapacity") 0 = Ok desired /\
    _coerce_capacity (dict_get event "minCapacity") desired = Ok minimum /\
    _coerce_capacity (dict_get event "maxCapacity") ceiling = Ok requested_max /\
    env = Envelope minimum desired (Z.max desired requested_max).
Proof.
  unfold normalize. intros H.
  apply res_bind_Ok in H as (d & Hd & H).
  apply res_bind_Ok in H as (m & Hm & H).
  apply res_bind_Ok in H as (r & Hr & H).
  injection H as <-. eauto 8.
Qed.

(** A run of [on_event]: one log line, then either the exception of the
    normalization, or a second log line and one call to the API. *)
Lemma on_event_run g ans event w :
  on_event g ans event w =
  let w1 := World (logged w ++ [LogReceived event]) (eks_calls w) in
  match normalize (_MAX_CAPACITY g) event with
  | Raise e => (Raise e, w1)
  | Ok env =>
      let w2 :=
        World (logged w1 ++ [LogUpdating (_CLUSTER_NAME g) (_NODEGROUP_NAME g)
                               (desired_capacity env) (min_capacity env)
                               (max_capacity env)])
              (eks_calls w ++ [call_of g env]) in
      match ans (eks_calls w) (call_of g env) with
      | None =>
          (Ok (response_of (_CLUSTER_NAME g) (_NODEGROUP_NAME g)
                 (desired_capacity env) (min_capacity env) (max_capacity env)),
           w2)
      | Some e => (Raise e, w2)
      end
  end.
Proof.
  unfold on_event, normalize, mbind, M_bind, res_bind, lift, logger_info,
    update_nodegroup_config; simpl.
  destruct (_coerce_capacity (dict_get event "desiredCapacity") 0) as [d|e];
    simpl; [|reflexivity].
  destruct (_coerce_capacity (dict_get event "minCapacity") d) as [m|e];
    simpl; [|reflexivity].
  destruct (_coerce_capacity (dict_get event "maxCapacity") (_MAX_CAPACITY g))
    as [r|e]; simpl; [|reflexivity].
  unfold call_of; simpl.
  destruct (ans (eks_calls w) _); reflexivity.
Qed.

(** ** The default only matters for an absent value *)

Lemma coerce_absent default : _coerce_capacity VNone default = Ok default.
Proof. reflexivity. Qed.

Lemma coerce_present v d d' :
  v <> VNone -> _coerce_capacity v d = _coerce_capacity v d'.
Proof. destruct v; intros Hv; [congruence | reflexivity ..]. Qed.




(** ** The envelope *)

(** C1, as stated, fails: with [desiredCapacity] 3 and [minCapacity] 5 the
    request is accepted and the envelope has minimum 5 above desired 3 (and
    above maximum 4). *)
Lemma C1_min_above_desired :
  normalize 4 ev_min_above = Ok (Envelope 5 3 4) /\
  ~ (min_capacity (Envelope 5 3 4) <= desired_capacity (Envelope 5 3 4)
     <= max_capacity (Envelope 5 3 4)) /\
  eks_calls (on_event g4 accept ev_min_above w0).2
    = [UpdateCall "wildfire" "workers" (ScalingConfig 5 4 3)].
Proof. split; [reflexivity|]. split; [simpl; lia | reflexivity]. Qed.

(** C1, amended: for every accepted request, desired <= maximum; the minimum
    is the coerced [minCapacity], taken as it is; and when [minCapacity] is
    absent, minimum <= desired <= maximum.  Nothing is asked of the raw
    fields. *)
Theorem C1_envelope_order ceiling event env :
  normalize ceiling event = Ok env ->
  desired_capacity env <= max_capacity env /\
  _coerce_capacity (dict_get event "minCapacity") (desired_capacity env)
    = Ok (min_capacity env) /\
  (dict_get event "minCapacity" = VNone ->
   min_capacity env <= desired_capacity env <= max_capacity env).
Proof.
  intros H. apply normalize_Ok in H as (d & m & r & Hd & Hm & Hr & ->); simpl.
  split; [lia|]. split; [exact Hm|].
  intros Habs. rewrite Habs in Hm. injection Hm as <-. lia.
Qed.

Lemma C1_envelope_order_witness :
  normalize 4 ev_desired_6 = Ok (Envelope 6 6 6) /\
  (6 <= 6 /\
   _coerce_capacity (dict_get ev_desired_6 "minCapacity") 6 = Ok 6 /\
   (dict_get ev_desired_6 "minCapacity" = VNone -> 6 <= 6 <= 6)).
Proof.
  split; [reflexivity|].
  apply (C1_envelope_order 4 ev_desired_6 (Envelope 6 6 6)). reflexivity.
Defined.

(** C2: for every accepted request the maximum is the larger of the resolved
    desired and the resolved [maxCapacity]; when [maxCapacity] is absent it
    is the ceiling, unless desired exceeds the ceiling, and then it is
    desired. *)
Theorem C2_maximum ceiling event env :
  normalize ceiling event = Ok env ->
  (exists requested_max,
     _coerce_capacity (dict_get event "maxCapacity") ceiling = Ok requested_max /\
     max_capacity env = Z.max (desired_capacity env) requested_max) /\
  (dict_get event "maxCapacity" = VNone ->
   max_capacity env =
     if (ceiling <? desired_capacity env)%Z then desired_capacity env else ceiling).
Proof.
  intros H. apply normalize_Ok in H as (d & m & r & Hd & Hm & Hr & ->); simpl.
  split; [eauto|].
  intros Habs. rewrite Habs in Hr. injection Hr as <-.
  destruct (Z.ltb_spec ceiling d); lia.
Qed.

Lemma C2_maximum_witness :
  (exists requested_max,
     _coerce_capacity (dict_get ev_desired_6 "maxCapacity") 4 = Ok requested_max /\
     6 = Z.max 6 requested_max) /\
  (dict_get ev_desired_6 "maxCapacity" = VNone -> 6 = if (4 <? 6)%Z then 6 else 4).
Proof.
  apply (C2_maximum 4 ev_desired_6 (Envelope 6 6 6)). reflexivity.
Defined.

(** C3: an absent [desiredCapacity] resolves to 0, whatever the other
    fields hold; and for every accepted request, an absent [minCapacity]
    resolves to the resolved desired, an explicit [minCapacity] of 0 resolves
    to 0, and the desired of an absent [desiredCapacity] is 0. *)
Theorem C3_defaults ceiling event :
  (dict_get event "desiredCapacity" = VNone ->
   _coerce_capacity (dict_get event "desiredCapacity") 0 = Ok 0) /\
  (forall env,
     normalize ceiling event = Ok env ->
     (dict_get event "minCapacity" = VNone ->
      min_capacity env = desired_capacity env) /\
     (dict_get event "minCapacity" = VInt 0 -> min_capacity env = 0) /\
     (dict_get event "desiredCapacity" = VNone -> desired_capacity env = 0)).
Proof.
  split; [by intros ->|].
  intros env H.
  apply normalize_Ok in H as (d & m & r & Hd & Hm & Hr & ->); simpl.
  repeat split; intros Hv.
  - rewrite Hv in Hm. by injection Hm.
  - rewrite Hv in Hm. by injection Hm.
  - rewrite Hv in Hd. by injection Hd.
Qed.

Lemma C3_defaults_witness :
  normalize 4 ev_min_zero = Ok (Envelope 0 3 4) /\
  min_capacity (Envelope 0 3 4) = 0 /\
  normalize 4 ev_desired_6 = Ok (Envelope 6 6 6) /\
  min_capacity (Envelope 6 6 6) = desired_capacity (Envelope 6 6 6) /\
  normalize 4 ∅ = Ok (Envelope 0 0 4) /\
  desired_capacity (Envelope 0 0 4) = 0.
Proof.
  split; [reflexivity|]. split.
  { apply (proj2 (C3_defaults 4 ev_min_zero) (Envelope 0 3 4)); reflexivity. }
  split; [reflexivity|]. split.
  { apply (proj2 (C3_defaults 4 ev_desired_6) (Envelope 6 6 6)); reflexivity. }
  split; [reflexivity|].
  apply (proj2 (C3_defaults 4 ∅) (Envelope 0 0 4)); reflexivity.
Defined.

(** C6, as stated, fails: a negative [desiredCapacity] is accepted and gives
    a negative desired and minimum. *)
Lemma C6_negative_accepted :
  normalize 4 ev_negative = Ok (Envelope (-1) (-1) 4) /\
  ~ (0 <= min_capacity (Envelope (-1) (-1) 4)) /\
  ~ (0 <= desired_capacity (Envelope (-1) (-1) 4)) /\
  eks_calls (on_event g4 accept ev_negative w0).2
    = [UpdateCall "wildfire" "workers" (ScalingConfig (-1) 4 (-1))].
Proof. split; [reflexivity|]. repeat split; simpl; lia. Qed.

(** C6, amended: every accepted request gives three integers, and none of
    them is negative provided [desiredCapacity] and [minCapacity], where
    supplied, coerce to non-negative numbers. *)
Theorem C6_nonnegative ceiling event env :
  normalize ceiling event = Ok env ->
  nonneg_if_supplied event "desiredCapacity" ->
  nonneg_if_supplied event "minCapacity" ->
  0 <= min_capacity env /\ 0 <= desired_capacity env /\ 0 <= max_capacity env.
Proof.
  intros H Hdes Hmin.
  apply normalize_Ok in H as (d & m & r & Hd & Hm & Hr & ->); simpl.
  assert (0 <= d) as Hd0.
  { destruct (dict_get event "desiredCapacity") eqn:E;
      try (apply (Hdes 0 d); [rewrite E; discriminate | by rewrite E]).
    injection Hd as <-. lia. }
  assert (0 <= m) as Hm0.
  { destruct (dict_get event "minCapacity") eqn:E;
      try (apply (Hmin d m); [rewrite E; discriminate | by rewrite E]).
    by injection Hm as <-. }
  lia.
Qed.

Lemma C6_nonnegative_witness :
  normalize 4 ev_start = Ok (Envelope 2 3 4) /\ 0 <= 2 /\ 0 <= 3 /\ 0 <= 4.
Proof.
  split; [reflexivity|].
  apply (C6_nonnegative 4 ev_start (Envelope 2 3 4)).
  - reflexivity.
  - intros d n _ H. vm_compute in H. injection H as <-. lia.
  - intros d n _ H. vm_compute in H. injection H as <-. lia.
Defined.

(** ** The call and the response *)

Lemma response_of_lookup c n d m x :
  response_of c n d m x !! "cluster" = Some (VStr c) /\
  response_of c n d m x !! "nodegroup" = Some (VStr n) /\
  response_of c n d m x !! "desired" = Some (VInt d) /\
  response_of c n d m x !! "min" = Some (VInt m) /\
  response_of c n d m x !! "max" = Some (VInt x).
Proof. unfold response_of. repeat split; by simplify_map_eq. Qed.

Lemma response_of_dom c n d m x :
  dom (response_of c n d m x) =
  ({["cluster"]} ∪ ({["nodegroup"]} ∪ ({["desired"]} ∪ ({["min"]} ∪ {["max"]}))) : gset string).
Proof.
  unfold response_of. rewrite !dom_insert_L, dom_empty_L. set_solver.
Qed.

(** C7: a successful invocation has issued one call, for the configured
    cluster and nodegroup and with the normalized capacities, and what it
    returns is the dictionary with keys cluster, nodegroup, desired, min and
    max holding that pool identity and exactly the sizes of that call. *)
Theorem C7_response g ans event w r w' :
  on_event g ans event w = (Ok r, w') ->
  exists call,
    eks_calls w' = eks_calls w ++ [call] /\
    (exists env, normalize (_MAX_CAPACITY g) event = Ok env /\ call = call_of g env) /\
    clusterName call = _CLUSTER_NAME g /\
    nodegroupName call = _NODEGROUP_NAME g /\
    dom r = ({["cluster"]} ∪ ({["nodegroup"]} ∪ ({["desired"]} ∪ ({["min"]} ∪ {["max"]})))
             : gset string) /\
    r !! "cluster" = Some (VStr (_CLUSTER_NAME g)) /\
    r !! "nodegroup" = Some (VStr (_NODEGROUP_NAME g)) /\
    r !! "desired" = Some (VInt (desiredSize (scalingConfig call))) /\
    r !! "min" = Some (VInt (minSize (scalingConfig call))) /\
    r !! "max" = Some (VInt (maxSize (scalingConfig call))).
Proof.
  rewrite on_event_run; simpl.
  destruct (normalize (_MAX_CAPACITY g) event) as [env|e] eqn:Hn; [|discriminate].
  destruct (ans (eks_calls w) (call_of g env)); [discriminate|].
  intros [= <- <-]. exists (call_of g env); simpl.
  split; [reflexivity|]. split; [eauto|]. do 2 (split; [reflexivity|]).
  split; [apply response_of_dom|]. apply response_of_lookup.
Qed.

Lemma C7_response_witness :
  exists call,
    eks_calls (on_event g4 accept ev_start w0).2 = [call] /\
    (exists env, normalize 4 ev_start = Ok env /\ call = call_of g4 env) /\
    clusterName call = "wildfire" /\
    nodegroupName call = "workers" /\
    dom (response_of "wildfire" "workers" 3 2 4) =
      ({["cluster"]} ∪ ({["nodegroup"]} ∪ ({["desired"]} ∪ ({["min"]} ∪ {["max"]})))
       : gset string) /\
    response_of "wildfire" "workers" 3 2 4 !! "cluster" = Some (VStr "wildfire") /\
    response_of "wildfire" "workers" 3 2 4 !! "nodegroup" = Some (VStr "workers") /\
    response_of "wildfire" "workers" 3 2 4 !! "desired"
      = Some (VInt (desiredSize (scalingConfig call))) /\
    response_of "wildfire" "workers" 3 2 4 !! "min"
      = Some (VInt (minSize (scalingConfig call))) /\
    response_of "wildfire" "workers" 3 2 4 !! "max"
      = Some (VInt (maxSize (scalingConfig call))).
Proof.
  apply (C7_response g4 accept ev_start w0
           (response_of "wildfire" "workers" 3 2 4)
           (on_event g4 accept ev_start w0).2).
  reflexivity.
Defined.

(** ** Rejection *)


Lemma coercible_None : coercible VNone = true.
Proof. reflexivity. Qed.






(** ** Replacing one field of an event *)

Lemma dict_get_insert (event : gmap string value) k v k' :
  dict_get (<[k := v]> event) k' = if decide (k = k') then v else dict_get event k'.
Proof.
  unfold dict_get. rewrite lookup_insert. by destruct (decide (k = k')).
Qed.

(** Two values that coerce alike can stand for each other in any field. *)
Lemma normalize_insert_ext ceiling event k v v' :
  (forall d, _coerce_capacity v d = _coerce_capacity v' d) ->
  normalize ceiling (<[k := v]> event) = normalize ceiling (<[k := v']> event).
Proof.
  intros Hvv. unfold normalize. rewrite !dict_get_insert.
  assert (forall k' d,
            _coerce_capacity (if decide (k = k') then v else dict_get event k') d =
            _coerce_capacity (if decide (k = k') then v' else dict_get event k') d)
    as Hk by (intros k' d; destruct (decide (k = k')); auto).
  rewrite (Hk "desiredCapacity").
  destruct (_coerce_capacity _ 0) as [dc|e]; simpl; [|reflexivity].
  rewrite (Hk "minCapacity").
  destruct (_coerce_capacity _ dc) as [mc|e]; simpl; [|reflexivity].
  by rewrite (Hk "maxCapacity").
Qed.

(** C9: booleans are taken by the numeric branch: [True] coerces to 1 and
    [False] to 0, whatever the default, and in any field a boolean normalizes
    as that integer does. *)
Theorem C9_booleans :
  (forall default, _coerce_capacity (VBool true) default = Ok 1) /\
  (forall default, _coerce_capacity (VBool false) default = Ok 0) /\
  (forall ceiling event k b,
     normalize ceiling (<[k := VBool b]> event) =
     normalize ceiling (<[k := VInt (py_int_of_bool b)]> event)).
Proof.
  repeat split. intros. by apply normalize_insert_ext.
Qed.

(** ** Text that holds no whitespace is left alone by [strip] *)

Lemma lstrip_id cs :
  Forall (fun c => py_isspace c = false) cs -> lstrip cs = cs.
Proof. destruct 1 as [|c cs Hc _]; simpl; [|rewrite Hc]; reflexivity. Qed.

Lemma py_strip_id cs :
  Forall (fun c => py_isspace c = false) cs -> py_strip cs = cs.
Proof.
  intros H. unfold py_strip, rstrip. rewrite (lstrip_id cs H), lstrip_id.
  - apply rev_involutive.
  - apply Forall_rev, H.
Qed.

Lemma lstrip_In c cs : py_isspace c = false -> In c cs -> In c (lstrip cs).
Proof.
  intros Hc. induction cs as [|a cs IH]; simpl; [tauto|].
  destruct (py_isspace a) eqn:Ha; [|intros H; exact H].
  intros [->|H]; [congruence | auto].
Qed.

Lemma py_strip_In c cs : py_isspace c = false -> In c cs -> In c (py_strip cs).
Proof.
  intros Hc H. unfold py_strip, rstrip.
  apply -> in_rev. apply lstrip_In; [assumption|].
  apply -> in_rev. by apply lstrip_In.
Qed.

(** ** Reading back the decimal string of an integer *)

Lemma digit_char c v :
  digit_value c = Some v ->
  py_isspace c = false /\ is_underscore c = false /\
  (code c =? 45)%N = false /\ (code c =? 43)%N = false.
Proof.
  unfold digit_value, py_isspace, is_underscore.
  destruct ((48 <=? code c)%N && (code c <=? 57)%N) eqn:E; [|discriminate].
  intros _. apply andb_true_iff in E as [E1 E2].
  apply N.leb_le in E1, E2.
  repeat split;
    repeat (apply orb_false_iff; split); try apply andb_false_iff;
    rewrite ?N.eqb_neq, ?N.leb_gt; lia.
Qed.

Lemma int_digits_uint acc d :
  int_digits acc false (chars (NilEmpty.string_of_uint d)) = Some (uint_value acc d).
Proof.
  revert acc. induction d; intros acc; simpl; [reflexivity | apply IHd ..].
Qed.

Lemma uint_chars_digits d :
  Forall (fun c => exists v, digit_value c = Some v)
         (chars (NilEmpty.string_of_uint d)).
Proof. induction d; simpl; constructor; eauto. Qed.

Lemma of_uint_acc_value d acc :
  Z.pos (Pos.of_uint_acc d acc) = uint_value (Z.pos acc) d.
Proof.
  revert acc. induction d; intros acc; simpl; [reflexivity | ..];
    rewrite IHd; f_equal; lia.
Qed.

Lemma of_uint_value d : Z.of_N (Pos.of_uint d) = uint_value 0 d.
Proof.
  induction d; simpl; try reflexivity; try exact IHd;
    apply (of_uint_acc_value d).
Qed.

Lemma int_unsigned_uint d :
  d <> Decimal.Nil ->
  int_unsigned (chars (NilEmpty.string_of_uint d)) = Some (Z.of_N (Pos.of_uint d)).
Proof.
  intros Hd. rewrite of_uint_value, <- int_digits_uint.
  destruct d; [congruence | reflexivity ..].
Qed.

Lemma uint_chars_nonspace d :
  Forall (fun c => py_isspace c = false) (chars (NilEmpty.string_of_uint d)).
Proof.
  eapply Forall_impl; [apply uint_chars_digits|].
  intros c [v Hv]. by destruct (digit_char c v Hv).
Qed.

Lemma int_signed_uint d :
  d <> Decimal.Nil ->
  int_signed (chars (NilEmpty.string_of_uint d)) = Some (Z.of_N (Pos.of_uint d)).
Proof.
  intros Hd. rewrite <- (int_unsigned_uint d Hd).
  pose proof (uint_chars_digits d) as Hall.
  destruct (chars (NilEmpty.string_of_uint d)) as [|c cs] eqn:E;
    [by destruct d|].
  apply Forall_cons in Hall as [[v Hv] _].
  destruct (digit_char c v Hv) as (_ & _ & H45 & H43).
  unfold int_signed. by rewrite H45, H43.
Qed.

Lemma string_of_uint_nonnil d :
  d <> Decimal.Nil -> NilZero.string_of_uint d = NilEmpty.string_of_uint d.
Proof. destruct d; [congruence | reflexivity ..]. Qed.

Lemma string_of_pos p :
  NilZero.string_of_uint (Pos.to_uint p) = NilEmpty.string_of_uint (Pos.to_uint p).
Proof. apply string_of_uint_nonnil, DecimalPos.Unsigned.to_uint_nonnil. Qed.

Lemma strip_str_of_int n :
  py_strip (chars (py_str_of_int n)) = chars (py_str_of_int n).
Proof.
  apply py_strip_id. unfold py_str_of_int.
  destruct n as [|p|p]; simpl; rewrite ?string_of_pos.
  - repeat constructor.
  - apply uint_chars_nonspace.
  - constructor; [reflexivity | apply uint_chars_nonspace].
Qed.

Lemma int_signed_str_of_int n :
  int_signed (chars (py_str_of_int n)) = Some n.
Proof.
  pose proof DecimalPos.Unsigned.to_uint_nonnil as Hnn.
  unfold py_str_of_int. destruct n as [|p|p]; simpl; rewrite ?string_of_pos.
  - reflexivity.
  - by rewrite int_signed_uint, DecimalPos.Unsigned.of_to.
  - change (Z.opp <$> int_unsigned (chars (NilEmpty.string_of_uint (Pos.to_uint p)))
            = Some (Z.neg p)).
    by rewrite int_unsigned_uint, DecimalPos.Unsigned.of_to.
Qed.

(** [int(str(n)) == n]. *)
Lemma py_int_of_str_of_int n : py_int_of_str (py_str_of_int n) = Ok n.
Proof.
  unfold py_int_of_str. by rewrite strip_str_of_int, int_signed_str_of_int.
Qed.



(** ** Text with a decimal point or an exponent *)

Lemma mark_char c :
  is_point c || is_exp c = true ->
  py_isspace c = false /\ digit_value c = None /\ is_underscore c = false /\
  (code c =? 45)%N = false /\ (code c =? 43)%N = false.
Proof.
  unfold is_point, is_exp, py_isspace, digit_value, is_underscore.
  rewrite !orb_true_iff, !N.eqb_eq. intros [H|[H|H]]; rewrite H; repeat split.
Qed.

Section Mark.

Variable c : ascii.
Hypothesis Hc : is_point c || is_exp c = true.

Lemma int_digits_mark cs acc prev_us :
  In c cs -> int_digits acc prev_us cs = None.
Proof.
  destruct (mark_char c Hc) as (_ & Hd & Hu & _).
  revert acc prev_us.
  induction cs as [|a cs IH]; intros acc prev_us; simpl; [tauto|].
  intros [->|Hin].
  - by rewrite Hd, Hu.
  - destruct (digit_value a); [by apply IH|].
    destruct (is_underscore a); [|reflexivity].
    destruct prev_us; [reflexivity | by apply IH].
Qed.

Lemma int_unsigned_mark cs : In c cs -> int_unsigned cs = None.
Proof.
  intros Hin. unfold int_unsigned. destruct cs as [|a cs]; [reflexivity|].
  destruct (is_underscore a); [reflexivity|].
  by apply int_digits_mark.
Qed.

Lemma int_signed_mark cs : In c cs -> int_signed cs = None.
Proof.
  intros Hin. destruct (mark_char c Hc) as (_ & _ & _ & H45 & H43).
  unfold int_signed. destruct cs as [|a cs]; [reflexivity|].
  assert (forall b, (code a =? b)%N = true -> (code c =? b)%N = false ->
                    int_unsigned cs = None) as Hsign.
  { intros b Ha Hb. apply int_unsigned_mark.
    destruct Hin as [->|Hin]; [congruence | assumption]. }
  destruct (code a =? 45)%N eqn:E45; [by rewrite (Hsign 45%N)|].
  destruct (code a =? 43)%N eqn:E43; [by apply (Hsign 43%N)|].
  by apply int_unsigned_mark.
Qed.


End Mark.

Lemma split_at_Some p cs a b :
  split_at p cs = (a, Some b) -> exists c, p c = true /\ In c cs.
Proof.
  revert a. induction cs as [|x cs IH]; intros a; simpl; [discriminate|].
  destruct (p x) eqn:Hx; [eauto|].
  destruct (split_at p cs) as [a' [b'|]]; [|discriminate].
  intros [= _ ->]. destruct (IH a' eq_refl) as (c & Hc & Hin). eauto.
Qed.

Lemma split_at_In p cs a b c :
  split_at p cs = (a, b) -> In c a -> In c cs.
Proof.
  revert a. induction cs as [|x cs IH]; intros a; simpl.
  - by intros [= <- _].
  - destruct (p x); [by intros [= <- _]|].
    destruct (split_at p cs) as [a' b'].
    intros [= <- <-] [->|Hin]; [by left | right; eauto].
Qed.

Lemma unsign_In cs neg body c : unsign cs = (neg, body) -> In c body -> In c cs.
Proof.
  unfold unsign. destruct cs as [|x cs]; [by intros [= _ <-]|].
  destruct (code x =? 45)%N; [intros [= _ <-]; simpl; auto|].
  destruct (code x =? 43)%N; intros [= _ <-]; simpl; auto.
Qed.

(** Numeric text with neither a decimal point nor an exponent denotes an
    integer; so text that denotes a number which is not an integer has one
    of the two. *)
Lemma numeric_value_mark s q :
  numeric_value s = Some q -> ~ is_integer q ->
  exists c, is_point c || is_exp c = true /\ In c (py_strip (chars s)).
Proof.
  unfold numeric_value.
  destruct (unsign (py_strip (chars s))) as [neg body] eqn:Eu.
  destruct (split_at is_exp body) as [mant exp] eqn:Ee.
  destruct (split_at is_point mant) as [ip fp] eqn:Ep.
  destruct exp as [ecs|].
  { intros _ _. destruct (split_at_Some _ _ _ _ Ee) as (c & Hc & Hin).
    exists c. rewrite Hc, orb_true_r. eauto using unsign_In. }
  destruct fp as [fcs|].
  { intros _ _. destruct (split_at_Some _ _ _ _ Ep) as (c & Hc & Hin).
    exists c. rewrite Hc. eauto using unsign_In, split_at_In. }
  simpl. rewrite app_nil_r. destruct ip as [|x ip]; [discriminate|].
  destruct (plain_digits 0 (x :: ip)) as [i|]; [|discriminate].
  intros [= <-] Hni. exfalso. apply Hni.
  exists (if neg then - (i * 1 + 0) else i * 1 + 0).
  destruct neg; unfold Qeq; simpl; lia.
Qed.

(** ** Truncating a float *)

Lemma Qtrunc_floor q :
  Qtrunc q = if (0 <=? Qnum q)%Z then Qfloor q else - Qfloor (- q).
Proof.
  destruct q as [n d]; unfold Qtrunc, Qfloor, Qopp; simpl.
  destruct (Z.leb_spec 0 n).
  - apply Z.quot_div_nonneg; lia.
  - rewrite <- (Z.opp_involutive n) at 1.
    rewrite Z.quot_opp_l by lia. f_equal. apply Z.quot_div_nonneg; lia.
Qed.

Lemma Qtrunc_comp q q' : (q == q')%Q -> Qtrunc q = Qtrunc q'.
Proof.
  intros H. rewrite !Qtrunc_floor.
  assert ((0 <=? Qnum q)%Z = (0 <=? Qnum q')%Z) as ->.
  { unfold Qeq in H. destruct (Z.leb_spec 0 (Qnum q)), (Z.leb_spec 0 (Qnum q'));
      try reflexivity; nia. }
  destruct (0 <=? Qnum q')%Z; by rewrite H.
Qed.

(** [int] of a finite float is the truncation of the number it denotes. *)
Lemma py_int_of_float_value f q :
  float_value f = Some q -> py_int_of_float f = Ok (Qtrunc q).
Proof.
  destruct f as [s|s| |s m e]; simpl; try discriminate.
  - intros [= <-]. reflexivity.
  - intros [= <-]. f_equal. unfold Qtrunc.
    destruct e as [|p|p], s; simpl Qnum; simpl Qden;
      rewrite ?Z.quot_1_r, ?Pos2Z.inj_pow; try reflexivity.
    + change (Z.neg m) with (- Z.pos m). rewrite Z.quot_opp_l by lia.
      f_equal. symmetry. apply Z.quot_div_nonneg; lia.
    + symmetry. apply Z.quot_div_nonneg; lia.
Qed.



(** ** The coercion rule *)



(** The rule leaves no choice about an accepted value. *)
Lemma coercion_rule_Ok_unique default v n r :
  coercion_rule default v (Ok n) -> coercion_rule default v r -> r = Ok n.
Proof.
  intros H1 H2. inversion H1; subst; inversion H2; subst;
    simpl in *; try congruence; try tauto.
Qed.


(** * Further properties of the handler *)

(** ** What a request can and cannot influence *)

Lemma dict_get_delete (event : gmap string value) k k' :
  dict_get (delete k event) k' = if decide (k = k') then VNone else dict_get event k'.
Proof.
  unfold dict_get. rewrite lookup_delete. by destruct (decide (k = k')).
Qed.

(** Events that agree on the three fields normalize alike. *)
Lemma normalize_ext ceiling event event' :
  (forall k, In k fields -> dict_get event k = dict_get event' k) ->
  normalize ceiling event = normalize ceiling event'.
Proof.
  intros H. unfold normalize.
  rewrite (H "desiredCapacity"), (H "minCapacity"), (H "maxCapacity");
    [reflexivity | simpl; auto ..].
Qed.

(** X1: a key other than the three capacity fields is ignored: adding or
    changing it changes neither the envelope nor the rejection. *)
Theorem X1_other_keys_ignored ceiling event k v :
  ~ In k fields ->
  normalize ceiling (<[k := v]> event) = normalize ceiling event.
Proof.
  intros Hk. apply normalize_ext. intros k' Hk'.
  rewrite dict_get_insert. destruct (decide (k = k')); [by subst|reflexivity].
Qed.

Lemma X1_other_keys_ignored_witness :
  normalize 4 (<["source" := VStr "aws.scheduler"]> ev_start) = normalize 4 ev_start.
Proof.
  apply (X1_other_keys_ignored 4 ev_start "source" (VStr "aws.scheduler")).
  simpl. intros [H|[H|[H|[]]]]; discriminate.
Defined.

(** X2: a field holding [None] (JSON null) is treated as a field that is not
    there at all. *)
Theorem X2_null_is_absent ceiling event k :
  normalize ceiling (<[k := VNone]> event) = normalize ceiling (delete k event).
Proof.
  apply normalize_ext. intros k' _.
  rewrite dict_get_insert, dict_get_delete. reflexivity.
Qed.

(** X3: the ceiling is only a default: once [maxCapacity] is supplied, the
    outcome is the same under every configured ceiling, so a request can
    raise the maximum above it. *)
Theorem X3_ceiling_only_a_default ceiling ceiling' event :
  dict_get event "maxCapacity" <> VNone ->
  normalize ceiling event = normalize ceiling' event.
Proof.
  intros H. unfold normalize.
  by rewrite (coerce_present _ ceiling ceiling' H).
Qed.

Lemma X3_ceiling_only_a_default_witness :
  normalize 4 (<["maxCapacity" := VInt 100]> ∅)
  = normalize 50 (<["maxCapacity" := VInt 100]> ∅) /\
  normalize 4 (<["maxCapacity" := VInt 100]> ∅) = Ok (Envelope 0 0 100).
Proof.
  split; [|reflexivity].
  apply (X3_ceiling_only_a_default 4 50 (<["maxCapacity" := VInt 100]> ∅)).
  vm_compute. discriminate.
Defined.

(** ** Floats *)

Lemma Qtrunc_inject_Z n : Qtrunc (inject_Z n) = n.
Proof. unfold Qtrunc; simpl. apply Z.quot_1_r. Qed.

(** X4: a float that holds a whole number coerces as that integer does, so
    in any field [3.0] and [3] normalize alike. *)
Theorem X4_whole_float_as_integer f q n :
  float_value f = Some q -> (q == inject_Z n)%Q ->
  (forall default, _coerce_capacity (VFloat f) default = Ok n) /\
  (forall ceiling event k,
     normalize ceiling (<[k := VFloat f]> event) =
     normalize ceiling (<[k := VInt n]> event)).
Proof.
  intros Hf Hq.
  assert (forall d, _coerce_capacity (VFloat f) d = Ok n) as Hc.
  { intros d. unfold _coerce_capacity; simpl.
    rewrite (py_int_of_float_value f q Hf). f_equal.
    rewrite (Qtrunc_comp _ _ Hq). apply Qtrunc_inject_Z. }
  split; [exact Hc|]. intros. apply normalize_insert_ext.
  intros d. by rewrite Hc.
Qed.

Lemma X4_whole_float_as_integer_witness :
  (forall default, _coerce_capacity (VFloat (S754_finite false 3 0)) default = Ok 3) /\
  (forall ceiling event k,
     normalize ceiling (<[k := VFloat (S754_finite false 3 0)]> event) =
     normalize ceiling (<[k := VInt 3]> event)).
Proof.
  apply (X4_whole_float_as_integer (S754_finite false 3 0) (3 # 1) 3);
    reflexivity.
Defined.

Lemma Qtrunc_bounds q :
  (0 <= q -> inject_Z (Qtrunc q) <= q /\ q < inject_Z (Qtrunc q + 1))%Q /\
  (q <= 0 -> inject_Z (Qtrunc q - 1) < q /\ q <= inject_Z (Qtrunc q))%Q.
Proof.
  destruct q as [a b]. unfold Qtrunc, Qle, Qlt; simpl.
  pose proof (Z.quot_rem' a (Z.pos b)) as Hqr.
  split; intros Ha.
  - pose proof (Z.rem_bound_pos_pos a (Z.pos b)). nia.
  - pose proof (Z.rem_bound_pos_neg a (Z.pos b)). nia.
Qed.

(** X5: a finite float is rounded towards zero, never away from it: the
    result [n] has [n <= q < n + 1] for a float [q >= 0] and
    [n - 1 < q <= n] for a float [q <= 0] (so -3.5 gives -3, not -4). *)
Theorem X5_float_rounds_towards_zero f q default :
  float_value f = Some q ->
  exists n,
    _coerce_capacity (VFloat f) default = Ok n /\
    (0 <= q -> inject_Z n <= q /\ q < inject_Z (n + 1))%Q /\
    (q <= 0 -> inject_Z (n - 1) < q /\ q <= inject_Z n)%Q.
Proof.
  intros Hf. exists (Qtrunc q). split.
  - unfold _coerce_capacity; simpl. apply (py_int_of_float_value f q Hf).
  - apply Qtrunc_bounds.
Qed.

Lemma X5_float_rounds_towards_zero_witness :
  exists n,
    _coerce_capacity (VFloat (S754_finite true 7 (-1))) 0 = Ok n /\
    (0 <= -7 # 2 -> inject_Z n <= -7 # 2 /\ -7 # 2 < inject_Z (n + 1))%Q /\
    (-7 # 2 <= 0 -> inject_Z (n - 1) < -7 # 2 /\ -7 # 2 <= inject_Z n)%Q.
Proof.
  apply (X5_float_rounds_towards_zero (S754_finite true 7 (-1)) (-7 # 2) 0).
  reflexivity.
Defined.

(** ** The handler and the API *)

(** X6: when the API answers an accepted request with an exception, the
    invocation ends with that very exception; by then both log lines are
    written and the one call has been issued, and nothing is tried again. *)
Theorem X6_api_exception_propagates g ans event w env e :
  normalize (_MAX_CAPACITY g) event = Ok env ->
  ans (eks_calls w) (call_of g env) = Some e ->
  on_event g ans event w =
  (Raise e,
   World (logged w ++ [LogReceived event;
                       LogUpdating (_CLUSTER_NAME g) (_NODEGROUP_NAME g)
                         (desired_capacity env) (min_capacity env)
                         (max_capacity env)])
         (eks_calls w ++ [call_of g env])).
Proof.
  intros Hn He. rewrite on_event_run, Hn; simpl. rewrite He.
  by rewrite <- app_assoc.
Qed.

Lemma X6_api_exception_propagates_witness :
  on_event g4 refuse ev_start w0 =
  (Raise (Exn ClientError (Api "ResourceNotFoundException")),
   World [LogReceived ev_start; LogUpdating "wildfire" "workers" 3 2 4]
         [UpdateCall "wildfire" "workers" (ScalingConfig 2 4 3)]).
Proof.
  apply (X6_api_exception_propagates g4 refuse ev_start w0 (Envelope 2 3 4));
    reflexivity.
Defined.

(** X7: the handler only appends.  Against an API whose answer does not
    depend on earlier calls, the result, the lines logged and the calls
    issued are fixed by the globals and the event alone: whatever was logged
    or called before is kept and never consulted. *)
Theorem X7_append_only g (answer : update_call -> option exn) event :
  exists r lines calls,
    forall w,
      on_event g (fun _ => answer) event w =
      (r, World (logged w ++ lines) (eks_calls w ++ calls)).
Proof.
  destruct (normalize (_MAX_CAPACITY g) event) as [env|e] eqn:Hn.
  - destruct (answer (call_of g env)) as [e|] eqn:Ha.
    + eexists _, _, _. intros w. rewrite on_event_run, Hn; simpl. rewrite Ha.
      by rewrite <- app_assoc.
    + eexists _, _, _. intros w. rewrite on_event_run, Hn; simpl. rewrite Ha.
      by rewrite <- app_assoc.
  - exists (Raise e), [LogReceived event], []. intros w.
    rewrite on_event_run, Hn; simpl. by rewrite app_nil_r.
Qed.

(** X8: invoking the handler twice in a row with the same event, against
    such an API, gives the same result twice and issues the same calls
    twice. *)
Theorem X8_repeated_invocation g (answer : update_call -> option exn) event w :
  (on_event g (fun _ => answer) event
     (on_event g (fun _ => answer) event w).2).1
  = (on_event g (fun _ => answer) event w).1 /\
  exists calls,
    (length calls <= 1)%nat /\
    eks_calls (on_event g (fun _ => answer) event w).2 = eks_calls w ++ calls /\
    eks_calls (on_event g (fun _ => answer) event
                 (on_event g (fun _ => answer) event w).2).2
    = eks_calls w ++ calls ++ calls.
Proof.
  rewrite !on_event_run.
  destruct (normalize (_MAX_CAPACITY g) event) as [env|e] eqn:Hn; simpl.
  - destruct (answer (call_of g env)) as [e|] eqn:Ha; simpl; rewrite ?Hn, ?Ha;
      (split; [reflexivity|]); exists [call_of g env]; simpl;
      rewrite <- app_assoc; auto.
  - split; [reflexivity|]. exists []. simpl. rewrite !app_nil_r. auto.
Qed.

(** ** Whitespace around text *)

Lemma lstrip_spaces ws cs :
  Forall (fun c => py_isspace c = true) ws -> lstrip (ws ++ cs) = lstrip cs.
Proof. induction 1 as [|c ws Hc _ IH]; simpl; [|rewrite Hc]; auto. Qed.

Lemma lstrip_app cs ws :
  lstrip (cs ++ ws) =
  match lstrip cs with [] => lstrip ws | _ :: _ => lstrip cs ++ ws end.
Proof.
  induction cs as [|c cs IH]; simpl; [by destruct (lstrip ws)|].
  destruct (py_isspace c); [exact IH | reflexivity].
Qed.

Lemma lstrip_all_spaces ws :
  Forall (fun c => py_isspace c = true) ws -> lstrip ws = [].
Proof. intros H. rewrite <- (app_nil_r ws). by rewrite lstrip_spaces. Qed.

Lemma rstrip_spaces cs ws :
  Forall (fun c => py_isspace c = true) ws -> rstrip (cs ++ ws) = rstrip cs.
Proof.
  intros H. unfold rstrip. rewrite rev_app_distr, lstrip_spaces; [reflexivity|].
  by apply Forall_rev.
Qed.

(** [strip] does not see whitespace added at either end. *)
Lemma py_strip_padded ws1 cs ws2 :
  Forall (fun c => py_isspace c = true) ws1 ->
  Forall (fun c => py_isspace c = true) ws2 ->
  py_strip (ws1 ++ cs ++ ws2) = py_strip cs.
Proof.
  intros H1 H2. unfold py_strip. rewrite lstrip_spaces, lstrip_app by assumption.
  destruct (lstrip cs) as [|c l] eqn:E.
  - by rewrite (lstrip_all_spaces ws2 H2).
  - by apply rstrip_spaces.
Qed.



(** X10: text made of whitespace only, of any length, is never handed to
    [int]: it is rejected by the handler's own [ValueError], which quotes the
    text as it came. *)
Theorem X10_blank_text_rejected s default :
  Forall (fun c => py_isspace c = true) (chars s) ->
  _coerce_capacity (VStr s) default = Raise (Exn ValueError (UnableToCoerce (VStr s))).
Proof.
  intros H. unfold _coerce_capacity; simpl.
  pose proof (py_strip_padded (chars s) [] [] H (Forall_nil_2 _)) as E.
  rewrite !app_nil_r in E. by rewrite E.
Qed.

Lemma X10_blank_text_rejected_witness :
  _coerce_capacity (VStr "   ") 7 = Raise (Exn ValueError (UnableToCoerce (VStr "   "))).
Proof.
  apply (X10_blank_text_rejected "   " 7). repeat constructor.
Defined.

(** ** Digits and underscores *)






(** ** The globals the handler loads *)

Lemma scaler_environment_lookup nodegroup_name max_node_capacity :
  scaler_environment nodegroup_name max_node_capacity !! "CLUSTER_NAME"
    = Some cluster_name /\
  scaler_environment nodegroup_name max_node_capacity !! "NODEGROUP_NAME"
    = Some nodegroup_name /\
  scaler_environment nodegroup_name max_node_capacity !! "MAX_CAPACITY"
    = Some (py_str_of_int max_node_capacity).
Proof. unfold scaler_environment. repeat split; by simplify_map_eq. Qed.

Lemma load_scaler_environment nodegroup_name max_node_capacity :
  load_globals (scaler_environment nodegroup_name max_node_capacity)
  = Ok (Globals cluster_name nodegroup_name max_node_capacity).
Proof.
  destruct (scaler_environment_lookup nodegroup_name max_node_capacity)
    as (Hc & Hn & Hm).
  unfold load_globals, environ_item.
  rewrite Hc, Hn, Hm; simpl. by rewrite py_int_of_str_of_int.
Qed.

(** X12: the ceiling travels from the stack to the handler unchanged: from
    the environment the stack gives the function, the handler loads the
    stack's cluster name, the nodegroup name and exactly
    [max_node_capacity], whatever integer that is; with [MAX_CAPACITY] taken
    out of that environment it loads 4, the stack's own default. *)
Theorem X12_stack_configures_handler nodegroup_name max_node_capacity :
  load_globals (scaler_environment nodegroup_name max_node_capacity)
    = Ok (Globals cluster_name nodegroup_name max_node_capacity) /\
  load_globals (delete "MAX_CAPACITY"
                  (scaler_environment nodegroup_name max_node_capacity))
    = Ok (Globals cluster_name nodegroup_name 4).
Proof.
  split; [apply load_scaler_environment|].
  destruct (scaler_environment_lookup nodegroup_name max_node_capacity)
    as (Hc & Hn & _).
  unfold load_globals, environ_item.
  rewrite (lookup_delete_ne _ "MAX_CAPACITY" "CLUSTER_NAME") by discriminate.
  rewrite (lookup_delete_ne _ "MAX_CAPACITY" "NODEGROUP_NAME") by discriminate.
  rewrite Hc, Hn, lookup_delete_eq. reflexivity.
Qed.

(** X13: a [MAX_CAPACITY] that is set but blank, or that denotes a number
    which is not an integer, does not fall back to 4: loading the globals
    raises the [ValueError] of an invalid literal. *)
Theorem X13_bad_ceiling_fails_import environ c ng s :
  environ !! "CLUSTER_NAME" = Some c ->
  environ !! "NODEGROUP_NAME" = Some ng ->
  environ !! "MAX_CAPACITY" = Some s ->
  Forall (fun a => py_isspace a = true) (chars s) \/
  (exists q, numeric_value s = Some q /\ ~ is_integer q) ->
  load_globals environ = Raise (Exn ValueError (InvalidLiteral s)).
Proof.
  intros Hc Hn Hm Hbad. unfold load_globals, environ_item.
  rewrite Hc, Hn, Hm; simpl. unfold py_int_of_str.
  destruct Hbad as [Hblank | (q & Hq & Hni)].
  - pose proof (py_strip_padded (chars s) [] [] Hblank (Forall_nil_2 _)) as E.
    rewrite !app_nil_r in E. by rewrite E.
  - destruct (numeric_value_mark s q Hq Hni) as (a & Ha & Hin).
    by rewrite (int_signed_mark a Ha).
Qed.

Lemma X13_bad_ceiling_fails_import_witness :
  load_globals (<["MAX_CAPACITY" := "4.5"]> (scaler_environment "workers" 4))
  = Raise (Exn ValueError (InvalidLiteral "4.5")).
Proof.
  apply (X13_bad_ceiling_fails_import _ cluster_name "workers" "4.5");
    try reflexivity.
  right. exists (45 # 10). split; [reflexivity|].
  intros [n Hn]. unfold Qeq in Hn. simpl in Hn. lia.
Defined.

(** ** The scheduled invocations *)

Lemma normalize_start_payload ceiling d m :
  normalize ceiling (start_payload d m) = Ok (Envelope m d (Z.max d ceiling)).
Proof. reflexivity. Qed.

(** X14: deployed as the stack configures it, the start schedule's
    invocation is never rejected: against an API that accepts, it issues the
    one call with the payload's minimum and desired and with the larger of
    the desired and [max_node_capacity] as maximum, and returns the same
    numbers. *)
Theorem X14_start_schedule ng max_node_capacity d m g w :
  load_globals (scaler_environment ng max_node_capacity) = Ok g ->
  (on_event g accepting (start_payload d m) w).1
    = Ok (response_of cluster_name ng d m (Z.max d max_node_capacity)) /\
  eks_calls (on_event g accepting (start_payload d m) w).2
    = eks_calls w ++
      [UpdateCall cluster_name ng (ScalingConfig m (Z.max d max_node_capacity) d)].
Proof.
  rewrite load_scaler_environment. intros [= <-].
  rewrite on_event_run. simpl _MAX_CAPACITY.
  rewrite normalize_start_payload. split; reflexivity.
Qed.

Lemma X14_start_schedule_witness :
  (on_event (Globals cluster_name "workers" 4) accepting (start_payload 2 1) w0).1
    = Ok (response_of cluster_name "workers" 2 1 (Z.max 2 4)) /\
  eks_calls (on_event (Globals cluster_name "workers" 4) accepting
               (start_payload 2 1) w0).2
    = eks_calls w0 ++
      [UpdateCall cluster_name "workers" (ScalingConfig 1 (Z.max 2 4) 2)].
Proof.
  apply (X14_start_schedule "workers" 4 2 1 (Globals cluster_name "workers" 4) w0).
  reflexivity.
Defined.

(** X15: a start followed by a stop.  When the start's desired capacity is
    within a non-negative [max_node_capacity], the two calls leave the
    maximum at [max_node_capacity] and the stop puts the nodegroup back to
    the scaling configuration it was provisioned with. *)
Theorem X15_start_then_stop ng max_node_capacity d m g w :
  load_globals (scaler_environment ng max_node_capacity) = Ok g ->
  0 <= max_node_capacity -> d <= max_node_capacity ->
  eks_calls
    (on_event g accepting stop_payload
       (on_event g accepting (start_payload d m) w).2).2
  = eks_calls w ++
    [UpdateCall cluster_name ng (ScalingConfig m max_node_capacity d);
     UpdateCall cluster_name ng (provisioned_scaling max_node_capacity)].
Proof.
  rewrite load_scaler_environment. intros [= <-] Hmax Hd.
  rewrite !on_event_run. simpl _MAX_CAPACITY.
  rewrite normalize_start_payload.
  change (normalize max_node_capacity stop_payload)
    with (Ok (Envelope 0 0 (Z.max 0 max_node_capacity))).
  unfold call_of, provisioned_scaling; simpl.
  rewrite <- app_assoc; simpl.
  by rewrite (Z.max_r d), (Z.max_r 0) by lia.
Qed.

Lemma X15_start_then_stop_witness :
  eks_calls
    (on_event (Globals cluster_name "workers" 4) accepting stop_payload
       (on_event (Globals cluster_name "workers" 4) accepting
          (start_payload 2 1) w0).2).2
  = eks_calls w0 ++
    [UpdateCall cluster_name "workers" (ScalingConfig 1 4 2);
     UpdateCall cluster_name "workers" (provisioned_scaling 4)].
Proof.
  apply (X15_start_then_stop "workers" 4 2 1 (Globals cluster_name "workers" 4) w0).
  - reflexivity.
  - lia.
  - lia.
Defined.

(** ** Signs *)



